(** * WhatsApp API service: connection-state tracker and HTTP facade

    A shallow embedding of [src/app.ts].  The repository holds two revisions
    of that file: the pairing-code revision ([src/src/app.ts]) and the QR
    revision ([src/unnamed/part_000]).  They differ in the provider options,
    in what the [qr] listener prints and in whether a [pairing-code] listener
    is registered; everything else is the same text, so one embedding
    parameterised by [Variant] covers both.

    JavaScript callbacks become programs in a small state-and-exception
    monad; the module-level [connectionStatus] variable, the console, the
    pending [setTimeout] callbacks and the calls made to the provider's send
    primitive are fields of the state. *)

From Stdlib Require Import Ascii String.
From stdpp Require Import gmap strings list.

Open Scope string_scope.

#[local] Set Warnings "-register-all".

(** ** JavaScript values *)

(** The values that can sit in a parsed JSON request body or be handed to
    [JSON.stringify].  Numbers are restricted to integers: the handlers only
    ever test a number for truthiness. *)
Inductive JsValue : Type :=
| JUndefined
| JNull
| JBool (b : bool)
| JNumber (n : Z)
| JString (s : string)
| JArray (items : list JsValue)
| JObject (fields : list (string * JsValue)).

(** ECMAScript [ToBoolean]: what [!v] negates. *)
Definition truthy (v : JsValue) : bool :=
  match v with
  | JUndefined | JNull => false
  | JBool b => b
  | JNumber n => negb (n =? 0)%Z
  | JString s => match s with EmptyString => false | String _ _ => true end
  | JArray _ | JObject _ => true
  end.

(** Property read on a parsed body, [req.body.k]: [undefined] when the key
    is not there. *)
Definition prop (o : gmap string JsValue) (k : string) : JsValue :=
  default JUndefined (o !! k).

(** Property read on an object literal given to [JSON.stringify]. *)
Fixpoint field (k : string) (fs : list (string * JsValue)) : option JsValue :=
  match fs with
  | [] => None
  | (k', v) :: rest => if String.eqb k k' then Some v else field k rest
  end.

Definition member (k : string) (v : JsValue) : option JsValue :=
  match v with
  | JObject fs => field k fs
  | _ => None
  end.

(** A thrown [Error] object; only its [message] is ever read. *)
Record JsError : Type := new_Error { message : string }.

(** ** The console *)

Inductive LogLevel : Type := Log | LogError.

Inductive LogArg : Type :=
| LText (s : string)
| LValue (v : JsValue)
| LThrown (e : JsError).

Record LogLine : Type := mkLine { level : LogLevel; args : list LogArg }.

Class Console (S : Type) : Type := write_line : LogLine -> S -> S.

(** ** State and exceptions *)

Inductive Outcome (A : Type) : Type :=
| Returned (a : A)
| Thrown (e : JsError).
Arguments Returned {A} a.
Arguments Thrown {A} e.

Definition M (S A : Type) : Type := S -> Outcome A * S.

Section Monad.
Context {S : Type}.

Definition ret {A} (a : A) : M S A := fun s => (Returned a, s).

Definition bind {A B} (m : M S A) (k : A -> M S B) : M S B :=
  fun s =>
    match m s with
    | (Returned a, s') => k a s'
    | (Thrown e, s') => (Thrown e, s')
    end.

Definition throw {A} (e : JsError) : M S A := fun s => (Thrown e, s).

(** [try { m } catch (error) { h error }]: effects made before the throw
    stay. *)
Definition try_catch {A} (m : M S A) (h : JsError -> M S A) : M S A :=
  fun s =>
    match m s with
    | (Returned a, s') => (Returned a, s')
    | (Thrown e, s') => h e s'
    end.

Definition gets {A} (f : S -> A) : M S A := fun s => (Returned (f s), s).

Definition modify (f : S -> S) : M S unit := fun s => (Returned tt, f s).

Definition console_log `{Console S} (a : list LogArg) : M S unit :=
  modify (write_line (mkLine Log a)).

Definition console_error `{Console S} (a : list LogArg) : M S unit :=
  modify (write_line (mkLine LogError a)).
End Monad.

(** The sequencing notations [x ← m; k] and [m;; k] are stdpp's. *)
#[export] Instance M_ret {S} : MRet (M S) := @ret S.
#[export] Instance M_bind {S} : MBind (M S) := fun A B k m => bind m k.

Definition result {S A} (m : M S A) (s : S) : Outcome A := fst (m s).
Definition after {S A} (m : M S A) (s : S) : S := snd (m s).

(** ** ConnectionStatus *)

Inductive Status : Type := Connected | Connecting | Disconnected | Error.

(** The string each member of the union type is written as. *)
Definition status_text (s : Status) : string :=
  match s with
  | Connected => "connected"
  | Connecting => "connecting"
  | Disconnected => "disconnected"
  | Error => "error"
  end.

Record ConnectionStatus : Type :=
  mkStatus { isConnected : bool; status : Status }.

(** A callback handed to [setTimeout].  The program has one. *)
Inductive Callback : Type := RetryConnecting.

Record Timer : Type := mkTimer { due : nat; callback : Callback }.

(** ** The running process *)

Record World : Type := mkWorld {
  connectionStatus : ConnectionStatus;
  console : list LogLine;                  (* oldest line first *)
  timers : list Timer;                     (* pending, in scheduling order *)
  now : nat;                               (* milliseconds *)
  sendMessage_calls : list (JsValue * JsValue)  (* (number, message), oldest first *)
}.

Definition initial_world : World :=
  {| connectionStatus := {| isConnected := false; status := Disconnected |};
     console := [];
     timers := [];
     now := 0;
     sendMessage_calls := [] |}.

#[export] Instance World_console : Console World :=
  fun l w =>
    {| connectionStatus := connectionStatus w;
       console := console w ++ [l];
       timers := timers w;
       now := now w;
       sendMessage_calls := sendMessage_calls w |}.

(** [connectionStatus = cs] *)
Definition set_connectionStatus (cs : ConnectionStatus) : M World unit :=
  modify (fun w =>
    {| connectionStatus := cs;
       console := console w;
       timers := timers w;
       now := now w;
       sendMessage_calls := sendMessage_calls w |}).

(** [setTimeout(cb, ms)]: a new pending timer, due [ms] from now.  Nothing
    is returned to the caller that could cancel it. *)
Definition setTimeout (cb : Callback) (ms : nat) : M World unit :=
  modify (fun w =>
    {| connectionStatus := connectionStatus w;
       console := console w;
       timers := timers w ++ [{| due := now w + ms; callback := cb |}];
       now := now w;
       sendMessage_calls := sendMessage_calls w |}).

(** [bot.sendMessage(number, message, {})]: the call is made, then the
    provider either resolves or rejects; which one is the provider's
    business and is given as [rejects]. *)
Definition bot_sendMessage (rejects : option JsError)
    (number message : JsValue) : M World unit :=
  modify (fun w =>
    {| connectionStatus := connectionStatus w;
       console := console w;
       timers := timers w;
       now := now w;
       sendMessage_calls := sendMessage_calls w ++ [(number, message)] |});;
  match rejects with
  | Some e => throw e
  | None => ret tt
  end.

(** ** Provider lifecycle listeners *)

Inductive Variant : Type :=
| PairingCodeRevision   (* src/app.ts *)
| QrRevision.           (* the revision that prints the QR code *)

(** [encodeURIComponent] on a UTF-8 string: the unreserved characters stay,
    every other byte becomes [%XX]. *)
Definition unreserved (c : ascii) : bool :=
  let n := nat_of_ascii c in
  ((65 <=? n)%nat && (n <=? 90)%nat) || ((97 <=? n)%nat && (n <=? 122)%nat)
  || ((48 <=? n)%nat && (n <=? 57)%nat)
  || existsb (Ascii.eqb c) (list_ascii_of_string "-_.!~*'()").

Definition hex_digit (n : nat) : ascii :=
  nth n (list_ascii_of_string "0123456789ABCDEF") "0"%char.

Fixpoint encodeURIComponent (s : string) : string :=
  match s with
  | EmptyString => EmptyString
  | String c rest =>
      if unreserved c then String c (encodeURIComponent rest)
      else
        let n := nat_of_ascii c in
        String "%" (String (hex_digit (n / 16)) (String (hex_digit (n mod 16))
          (encodeURIComponent rest)))
  end.

(** The body of the [setTimeout] callback of the [auth_failure] listener. *)
Definition run_callback (cb : Callback) : M World unit :=
  match cb with
  | RetryConnecting =>
      console_log [LText "🔄 Reintentando conexión WhatsApp..."];;
      set_connectionStatus {| isConnected := false; status := Connecting |}
  end.

Definition on_auth_failure (error : JsValue) : M World unit :=
  console_log [LText "❌ Fallo de autenticación WhatsApp"];;
  console_log [LText "⚡⚡ ERROR AUTH ⚡⚡"];;
  console_log [LText "Detalles del error:"; LValue error];;
  set_connectionStatus {| isConnected := false; status := Error |};;
  (* Reintentar conexión después de 5 segundos *)
  setTimeout RetryConnecting 5000.

Definition on_ready : M World unit :=
  console_log [LText "✅ WhatsApp conectado y listo"];;
  set_connectionStatus {| isConnected := true; status := Connected |}.

Definition on_qr (v : Variant) (qr : string) : M World unit :=
  match v with
  | PairingCodeRevision =>
      console_log [LText "🔗 Esperando autenticación por código de pairing..."];;
      set_connectionStatus {| isConnected := false; status := Connecting |}
  | QrRevision =>
      console_log [LText "🔗 QR Code generado - Escanea con WhatsApp:"];;
      console_log [LText "⚡⚡ ACTION REQUIRED ⚡⚡"];;
      console_log [LText "📱 Abre WhatsApp en tu teléfono"];;
      console_log [LText "📱 Ve a Configuración > Dispositivos vinculados"];;
      console_log [LText "📱 Toca 'Vincular un dispositivo'"];;
      console_log [LText "📱 Escanea el siguiente código QR:"];;
      console_log [LText "┌─────────────────────────────────────┐"];;
      console_log [LText ("│ " ++ qr)];;
      console_log [LText "└─────────────────────────────────────┘"];;
      console_log [LText "💡 Si no puedes ver el QR, copia este enlace:"];;
      console_log
        [LText ("https://api.qrserver.com/v1/create-qr-code/?size=200x200&data="
                ++ encodeURIComponent qr)];;
      set_connectionStatus {| isConnected := false; status := Connecting |}
  end.

(** [phone] is [WHATSAPP_PHONE], which the listener closes over.  The QR
    revision registers no listener for this event. *)
Definition on_pairing_code (v : Variant) (phone code : string) : M World unit :=
  match v with
  | PairingCodeRevision =>
      console_log [LText ("📱 Código de pairing: " ++ code)];;
      console_log [LText ("   Use este código en WhatsApp para conectar el número "
                          ++ phone)];;
      console_log [LText "⚡⚡ ACTION REQUIRED ⚡⚡"];;
      console_log [LText ("Accept the WhatsApp notification from " ++ phone
                          ++ " on your phone 👌")];;
      console_log [LText ("The token for linking is: " ++ code)]
  | QrRevision => mret tt
  end.

Definition on_error (error : JsValue) : M World unit :=
  console_error [LText "❌ Error del proveedor WhatsApp:"; LValue error];;
  set_connectionStatus {| isConnected := false; status := Error |}.

Definition on_close : M World unit :=
  console_log [LText "⚠️ Conexión WhatsApp cerrada"];;
  set_connectionStatus {| isConnected := false; status := Disconnected |}.

Inductive ProviderEvent : Type :=
| AuthFailure (error : JsValue)
| Ready
| Qr (qr : string)
| PairingCode (code : string)
| ProviderError (error : JsValue)
| Close.

(** [adapterProvider.emit(e)] with the listeners of [main] registered. *)
Definition emit (v : Variant) (phone : string) (e : ProviderEvent)
    : M World unit :=
  match e with
  | AuthFailure error => on_auth_failure error
  | Ready => on_ready
  | Qr qr => on_qr v qr
  | PairingCode code => on_pairing_code v phone code
  | ProviderError error => on_error error
  | Close => on_close
  end.

(** ** HTTP routes *)

Record Response : Type := mkResponse {
  statusCode : nat;
  headers : list (string * string);
  body : JsValue            (* the argument of [JSON.stringify] *)
}.

(** [res.writeHead(code, {'Content-Type': 'application/json'});
     return res.end(JSON.stringify(payload))] *)
Definition respond {S} (code : nat) (payload : JsValue) : M S Response :=
  mret {| statusCode := code;
          headers := [("Content-Type", "application/json")];
          body := payload |}.

Definition get_root : M World Response :=
  respond 200 (JObject
    [("message", JString "🟢 WhatsApp API activa");
     ("version", JString "1.0.0");
     ("endpoints", JObject
        [("sendMessage", JString "POST /send-message");
         ("status", JString "GET /status")])]).

Definition post_send_message (rejects : option JsError)
    (req_body : gmap string JsValue) : M World Response :=
  try_catch
    (let number := prop req_body "number" in
     let message := prop req_body "message" in
     if negb (truthy number) || negb (truthy message) then
       respond 400 (JObject
         [("error", JString "Faltan campos: number y message son requeridos")])
     else
       cs ← gets connectionStatus;
       if negb (isConnected cs) then
         respond 400 (JObject
           [("error", JString "WhatsApp no está conectado");
            ("status", JString "not_connected")])
       else
         bot_sendMessage rejects number message;;
         respond 200 (JObject
           [("success", JBool true);
            ("message", JString "✅ Mensaje enviado correctamente");
            ("to", number)]))
    (fun error =>
       console_error [LText "❌ Error al enviar mensaje:"; LThrown error];;
       respond 500 (JObject
         [("error", JString "Error al enviar mensaje");
          ("details", JString (message error))])).

Definition get_status : M World Response :=
  try_catch
    (cs ← gets connectionStatus;
     let response := JObject
       [("isConnected", JBool (isConnected cs));
        ("status", JString (status_text (status cs)));
        ("message", JString
           (if isConnected cs
            then "✅ WhatsApp conectado y listo para enviar mensajes"
            else "⏳ WhatsApp no conectado"))] in
     respond 200 response)
    (fun error =>
       console_error [LText "❌ Error en /status:"; LThrown error];;
       respond 500 (JObject
         [("error", JString "Error al obtener estado");
          ("details", JString (message error))])).

Inductive HttpRequest : Type :=
| GetRoot
| GetStatus
| PostSendMessage (req_body : gmap string JsValue) (rejects : option JsError).

Definition serve (r : HttpRequest) : M World Response :=
  match r with
  | GetRoot => get_root
  | GetStatus => get_status
  | PostSendMessage req_body rejects => post_send_message rejects req_body
  end.

(** ** The event loop *)

(** One turn of the loop.  Timers all carry the same delay, so the pending
    list is in firing order and the loop runs its head once it is due. *)
Inductive Turn : Type :=
| ProviderEmits (e : ProviderEvent)
| TimerFires
| TimePasses (ms : nat)
| Request (r : HttpRequest).

Definition elapse (ms : nat) : M World unit :=
  modify (fun w =>
    {| connectionStatus := connectionStatus w;
       console := console w;
       timers := timers w;
       now := now w + ms;
       sendMessage_calls := sendMessage_calls w |}).

Definition drop_timer : M World unit :=
  modify (fun w =>
    {| connectionStatus := connectionStatus w;
       console := console w;
       timers := tail (timers w);
       now := now w;
       sendMessage_calls := sendMessage_calls w |}).

Definition fire_timer : M World unit :=
  pending ← gets timers;
  clock ← gets now;
  match pending with
  | t :: _ =>
      if (due t <=? clock)%nat then drop_timer;; run_callback (callback t)
      else mret tt
  | [] => mret tt
  end.

Definition turn (v : Variant) (phone : string) (t : Turn)
    : M World (option Response) :=
  match t with
  | ProviderEmits e => emit v phone e;; mret None
  | TimerFires => fire_timer;; mret None
  | TimePasses ms => elapse ms;; mret None
  | Request r => resp ← serve r; mret (Some resp)
  end.

Definition run_turns (v : Variant) (phone : string) (ts : list Turn)
    (w : World) : World :=
  foldl (fun w t => after (turn v phone t) w) w ts.

(** ** Start-up *)

(** [process.env] once [config()] has loaded the [.env] file. *)
Record Env : Type := mkEnv {
  env_PORT : option string;
  env_WHATSAPP_PHONE_NUMBER : option string
}.

(** [process.env.PORT ?? 3003] *)
Definition PORT (env : Env) : JsValue :=
  match env_PORT env with
  | Some p => JString p
  | None => JNumber 3003
  end.

(** [PORT] inside a template literal. *)
Definition PORT_text (env : Env) : string :=
  match env_PORT env with
  | Some p => p
  | None => "3003"
  end.

Definition WHATSAPP_PHONE (env : Env) : JsValue :=
  match env_WHATSAPP_PHONE_NUMBER env with
  | Some p => JString p
  | None => JUndefined
  end.

Definition WHATSAPP_PHONE_text (env : Env) : string :=
  default "undefined" (env_WHATSAPP_PHONE_NUMBER env).

(** What [main] asks of the libraries it wires together.  [HttpServer]
    carries the operand of the unary plus in [httpServer(+PORT)]. *)
Inductive ExternalCall : Type :=
| NewDatabase
| CreateFlow
| CreateProvider (options : JsValue)
| On (event : string)
| CreateBot
| ServerGet (path : string)
| ServerPost (path : string)
| HttpServer (port : JsValue).

(** What the process does, in order. *)
Inductive Effect : Type :=
| Printed (l : LogLine)
| Called (c : ExternalCall)
| Exited (code : Z).

#[export] Instance Effects_console : Console (list Effect) :=
  fun l tr => (tr ++ [Printed l])%list.

(** A library call is made and may throw; [fails] says which ones do. *)
Definition external (fails : ExternalCall -> option JsError)
    (c : ExternalCall) : M (list Effect) unit :=
  modify (fun tr => (tr ++ [Called c])%list);;
  match fails c with
  | Some e => throw e
  | None => mret tt
  end.

Definition process_exit (code : Z) : M (list Effect) unit :=
  modify (fun tr => (tr ++ [Exited code])%list).

Definition validateConfig (env : Env) : M (list Effect) unit :=
  if negb (truthy (WHATSAPP_PHONE env)) then
    throw (new_Error "WHATSAPP_PHONE_NUMBER environment variable is required")
  else
    console_log [LText "🔧 Configuration:"];;
    console_log [LText ("   - Port: " ++ PORT_text env)];;
    console_log [LText ("   - WhatsApp Phone: " ++ WHATSAPP_PHONE_text env)].

Definition provider_options (v : Variant) (env : Env) : JsValue :=
  match v with
  | PairingCodeRevision =>
      JObject [("usePairingCode", JBool true);
               ("phoneNumber", WHATSAPP_PHONE env);
               ("experimentalStore", JBool true);
               ("timeRelease", JNumber 10800000)]
  | QrRevision =>
      JObject [("version", JArray [JNumber 2; JNumber 3000; JNumber 1032049861]);
               ("browser", JArray [JString "Windows"; JString "Chrome";
                                   JString "Chrome 114.0.5735.198"]);
               ("experimentalStore", JBool true);
               ("timeRelease", JNumber 10800000)]
  end.

Definition main (v : Variant) (env : Env)
    (fails : ExternalCall -> option JsError) : M (list Effect) unit :=
  try_catch
    (validateConfig env;;
     console_log [LText "🤖 Inicializando WhatsApp API Service..."];;
     external fails NewDatabase;;
     external fails CreateFlow;;
     external fails (CreateProvider (provider_options v env));;
     external fails (On "auth_failure");;
     external fails (On "ready");;
     external fails (On "qr");;
     match v with
     | PairingCodeRevision => external fails (On "pairing-code")
     | QrRevision => mret tt
     end;;
     external fails (On "error");;
     external fails (On "close");;
     external fails CreateBot;;
     external fails (ServerGet "/");;
     external fails (ServerPost "/send-message");;
     external fails (ServerGet "/status");;
     external fails (HttpServer (PORT env));;
     console_log [LText ("🚀 WhatsApp API ejecutándose en puerto " ++ PORT_text env)];;
     console_log [LText ("📊 Estado del servicio: http://localhost:"
                         ++ PORT_text env ++ "/status")])
    (fun error =>
       console_error [LText "❌ Error al iniciar la aplicación:"; LThrown error];;
       process_exit 1).

(** The effects of [main()] from process start. *)
Definition startup (v : Variant) (env : Env)
    (fails : ExternalCall -> option JsError) : list Effect :=
  after (main v env fails) [].

Definition binds_port (e : Effect) : bool :=
  match e with
  | Called (HttpServer _) => true
  | _ => false
  end.

(** ** Vocabulary of the statements *)

(** The answer of the first guard of POST /send-message. *)
Definition missing_fields_response : Response :=
  {| statusCode := 400;
     headers := [("Content-Type", "application/json")];
     body := JObject
       [("error", JString "Faltan campos: number y message son requeridos")] |}.

(** The answer of its second guard. *)
Definition not_connected_response : Response :=
  {| statusCode := 400;
     headers := [("Content-Type", "application/json")];
     body := JObject
       [("error", JString "WhatsApp no está conectado");
        ("status", JString "not_connected")] |}.

(** A (number, message) pair that passes the first guard. *)
Definition sendable (c : JsValue * JsValue) : Prop :=
  truthy c.1 = true /\ truthy c.2 = true.

(** [auth_failure] repeated [n] times in a row. *)
Definition auth_failures (n : nat) (error : JsValue) : list Turn :=
  replicate n (ProviderEmits (AuthFailure error)).

(** The two fields agree. *)
Definition consistent (cs : ConnectionStatus) : Prop :=
  isConnected cs = true <-> status cs = Connected.

(** The 200 answer of GET /status under a given [connectionStatus]. *)
Definition status_report (cs : ConnectionStatus) : Response :=
  {| statusCode := 200;
     headers := [("Content-Type", "application/json")];
     body := JObject
       [("isConnected", JBool (isConnected cs));
        ("status", JString (status_text (status cs)));
        ("message", JString
           (if isConnected cs
            then "✅ WhatsApp conectado y listo para enviar mensajes"
            else "⏳ WhatsApp no conectado"))] |}.

(** Turns that are neither a provider event nor a timer firing. *)
Definition quiet (t : Turn) : bool :=
  match t with
  | Request _ | TimePasses _ => true
  | ProviderEmits _ | TimerFires => false
  end.

(** What the [catch] block of [main] does with the error it caught. *)
Definition startup_failure (e : JsError) : list Effect :=
  [Printed (mkLine LogError
     [LText "❌ Error al iniciar la aplicación:"; LThrown e]);
   Exited 1].

(** The 200 answer of POST /send-message; [to] echoes the request's
    [number] as it came. *)
Definition success_response (number : JsValue) : Response :=
  {| statusCode := 200;
     headers := [("Content-Type", "application/json")];
     body := JObject
       [("success", JBool true);
        ("message", JString "✅ Mensaje enviado correctamente");
        ("to", number)] |}.

(** The 500 answer of POST /send-message for a caught error. *)
Definition failure_response (e : JsError) : Response :=
  {| statusCode := 500;
     headers := [("Content-Type", "application/json")];
     body := JObject
       [("error", JString "Error al enviar mensaje");
        ("details", JString (message e))] |}.

(** The state once [bot.sendMessage(number, message, {})] has been called. *)
Definition called (number message : JsValue) (w : World) : World :=
  {| connectionStatus := connectionStatus w;
     console := console w;
     timers := timers w;
     now := now w;
     sendMessage_calls := sendMessage_calls w ++ [(number, message)] |}.

Definition is_post (t : Turn) : bool :=
  match t with
  | Request (PostSendMessage _ _) => true
  | _ => false
  end.

Definition is_ready (t : Turn) : bool :=
  match t with
  | ProviderEmits Ready => true
  | _ => false
  end.

Definition is_provider_event (t : Turn) : bool :=
  match t with
  | ProviderEmits _ => true
  | _ => false
  end.




(** Two states that differ at most in what was printed. *)
Definition same_but_console (w1 w2 : World) : Prop :=
  connectionStatus w1 = connectionStatus w2
  /\ timers w1 = timers w2
  /\ now w1 = now w2
  /\ sendMessage_calls w1 = sendMessage_calls w2.

(** The state with its console wiped. *)
Definition silence (w : World) : World :=
  {| connectionStatus := connectionStatus w;
     console := [];
     timers := timers w;
     now := now w;
     sendMessage_calls := sendMessage_calls w |}.

(** The library calls [main] makes between validation and [httpServer],
    in the order it makes them. *)
Definition wiring (v : Variant) (env : Env) : list ExternalCall :=
  [NewDatabase; CreateFlow; CreateProvider (provider_options v env);
   On "auth_failure"; On "ready"; On "qr"]
  ++ match v with
     | PairingCodeRevision => [On "pairing-code"]
     | QrRevision => []
     end
  ++ [On "error"; On "close"; CreateBot;
      ServerGet "/"; ServerPost "/send-message"; ServerGet "/status"].

(** Calls made one after the other until one throws: the calls made, and
    the error that stopped them if one did. *)
Fixpoint attempt (fails : ExternalCall -> option JsError)
    (cs : list ExternalCall) : list Effect * option JsError :=
  match cs with
  | [] => ([], None)
  | c :: rest =>
      match fails c with
      | Some e => ([Called c], Some e)
      | None => let (made, stop) := attempt fails rest in (Called c :: made, stop)
      end
  end.

Definition succeeds (fails : ExternalCall -> option JsError)
    (c : ExternalCall) : bool :=
  match fails c with
  | None => true
  | Some _ => false
  end.

Definition exits (e : Effect) : bool :=
  match e with
  | Exited _ => true
  | _ => false
  end.

(** The two lines [main] prints once [httpServer] has returned. *)
Definition announcement (env : Env) : list Effect :=
  [Printed (mkLine Log
     [LText ("🚀 WhatsApp API ejecutándose en puerto " ++ PORT_text env)]);
   Printed (mkLine Log
     [LText ("📊 Estado del servicio: http://localhost:"
             ++ PORT_text env ++ "/status")])].

(** What [main] prints before it touches a library: the three lines of
    [validateConfig] and the banner. *)
Definition preamble (env : Env) : list Effect :=
  [Printed (mkLine Log [LText "🔧 Configuration:"]);
   Printed (mkLine Log [LText ("   - Port: " ++ PORT_text env)]);
   Printed (mkLine Log
     [LText ("   - WhatsApp Phone: " ++ WHATSAPP_PHONE_text env)]);
   Printed (mkLine Log [LText "🤖 Inicializando WhatsApp API Service..."])].

(** Every library call of [main], [httpServer] last. *)
Definition library_calls (v : Variant) (env : Env) : list ExternalCall :=
  wiring v env ++ [HttpServer (PORT env)].

(** The state once the retry callback of the head timer has run, [rest]
    being the timers still pending. *)
Definition retried (rest : list Timer) (w : World) : World :=
  {| connectionStatus := {| isConnected := false; status := Connecting |};
     console := console w ++
       [mkLine Log [LText "🔄 Reintentando conexión WhatsApp..."]];
     timers := rest;
     now := now w;
     sendMessage_calls := sendMessage_calls w |}.

(** * Properties *)

(** ** Stepping through monadic code *)

Ltac step_monad :=
  unfold after, result, console_log, console_error, set_connectionStatus,
    setTimeout, bot_sendMessage, respond, elapse, drop_timer, process_exit;
  unfold mbind, M_bind, mret, M_ret, bind, ret, throw, try_catch, gets, modify;
  cbn [fst snd negb orb andb].

Lemma run_turns_cons v phone t ts w :
  run_turns v phone (t :: ts) w
  = run_turns v phone ts (after (turn v phone t) w).
Proof. reflexivity. Qed.

(** ** POST /send-message: the two guards *)

(** The first guard only looks at the two fields. *)
Lemma send_message_falsy_field rejects (b : gmap string JsValue) w :
  truthy (prop b "number") && truthy (prop b "message") = false ->
  post_send_message rejects b w = (Returned missing_fields_response, w).
Proof.
  intros Hf. unfold post_send_message.
  destruct (truthy (prop b "number")), (truthy (prop b "message"));
    try discriminate Hf; reflexivity.
Qed.

(** Past the first guard, a disconnected service answers without calling
    the provider. *)
Lemma send_message_truthy_disconnected rejects (b : gmap string JsValue) w :
  truthy (prop b "number") = true ->
  truthy (prop b "message") = true ->
  isConnected (connectionStatus w) = false ->
  post_send_message rejects b w = (Returned not_connected_response, w).
Proof.
  intros Hn Hm Hc. unfold post_send_message. rewrite Hn, Hm.
  step_monad. rewrite Hc. reflexivity.
Qed.

Lemma prop_absent (b : gmap string JsValue) k :
  b !! k = None -> prop b k = JUndefined.
Proof. intros H. unfold prop. rewrite H. reflexivity. Qed.

Lemma prop_insert (b : gmap string JsValue) k x :
  prop (<[k:=x]> b) k = x.
Proof. unfold prop. rewrite lookup_insert_eq. reflexivity. Qed.

Lemma prop_delete (b : gmap string JsValue) k :
  prop (delete k b) k = JUndefined.
Proof. unfold prop. rewrite lookup_delete_eq. reflexivity. Qed.

(** ** What each turn leaves alone *)

Ltac send_message_cases b w rejects :=
  unfold post_send_message;
  generalize (prop b "number"), (prop b "message");
  let number := fresh "number" in
  let message := fresh "message" in
  intros number message;
  destruct (truthy number) eqn:?, (truthy message) eqn:?;
  step_monad;
  try (destruct (isConnected (connectionStatus w)) eqn:?;
       cbn [fst snd negb orb andb];
       try (destruct rejects; cbn [fst snd connectionStatus console timers
                                   now sendMessage_calls])).

(** No route handler assigns [connectionStatus], schedules or cancels a
    timer, or moves the clock. *)
Lemma serve_frame r w :
  connectionStatus (after (serve r) w) = connectionStatus w
  /\ timers (after (serve r) w) = timers w
  /\ now (after (serve r) w) = now w.
Proof.
  destruct r as [| |b rejects]; cbn [serve].
  - repeat split; reflexivity.
  - repeat split; reflexivity.
  - send_message_cases b w rejects; repeat split; reflexivity.
Qed.

(** Every route handler answers; none lets an exception escape. *)
Lemma serve_returns r w : exists resp, result (serve r) w = Returned resp.
Proof.
  destruct r as [| |b rejects]; cbn [serve].
  - eexists; reflexivity.
  - eexists; reflexivity.
  - send_message_cases b w rejects; eexists; reflexivity.
Qed.

(** The only call to the provider's send primitive sits behind both guards. *)
Lemma send_message_calls rejects (b : gmap string JsValue) w :
  sendMessage_calls (after (post_send_message rejects b) w)
  = if truthy (prop b "number") && truthy (prop b "message")
       && isConnected (connectionStatus w)
    then (sendMessage_calls w ++ [(prop b "number", prop b "message")])%list
    else sendMessage_calls w.
Proof.
  send_message_cases b w rejects; reflexivity.
Qed.

Lemma emit_calls v phone e w :
  sendMessage_calls (after (emit v phone e) w) = sendMessage_calls w.
Proof. destruct e, v; reflexivity. Qed.

Lemma fire_timer_cases w :
  after fire_timer w = w
  \/ exists t rest,
       timers w = t :: rest /\ due t <= now w
       /\ after fire_timer w
          = {| connectionStatus := {| isConnected := false; status := Connecting |};
               console := (console w ++ [mkLine Log
                  [LText "🔄 Reintentando conexión WhatsApp..."]])%list;
               timers := rest;
               now := now w;
               sendMessage_calls := sendMessage_calls w |}.
Proof.
  unfold fire_timer. step_monad.
  destruct (timers w) as [|t rest] eqn:Ht; [left; reflexivity|].
  destruct (due t <=? now w)%nat eqn:Hdue; [|left; reflexivity].
  right. exists t, rest. apply Nat.leb_le in Hdue.
  destruct t as [d []]. cbn in *. rewrite Ht. auto.
Qed.

Lemma after_bind_ret {S A B} (m : M S A) (f : A -> B) (s : S) :
  after (x ← m; mret (f x)) s = after m s.
Proof.
  unfold after, mbind, M_bind, bind, mret, M_ret, ret.
  destruct (m s) as [[a|e] s']; reflexivity.
Qed.

(** The state a turn leaves is the state its handler leaves. *)
Lemma after_turn v phone t w :
  after (turn v phone t) w
  = match t with
    | ProviderEmits e => after (emit v phone e) w
    | TimerFires => after fire_timer w
    | TimePasses ms => after (elapse ms) w
    | Request r => after (serve r) w
    end.
Proof. destruct t; cbn [turn]; apply after_bind_ret. Qed.

Lemma turn_calls v phone t w :
  Forall sendable (sendMessage_calls w) ->
  Forall sendable (sendMessage_calls (after (turn v phone t) w)).
Proof.
  intros Hw. rewrite after_turn. destruct t as [e| |ms|r].
  - rewrite emit_calls. exact Hw.
  - destruct (fire_timer_cases w) as [->|(t & rest & _ & _ & ->)]; exact Hw.
  - exact Hw.
  - destruct r as [| |b rejects]; try exact Hw.
    cbn [serve]. rewrite send_message_calls.
    destruct (truthy (prop b "number")) eqn:Hn,
             (truthy (prop b "message")) eqn:Hm,
             (isConnected (connectionStatus w)); cbn [andb]; try exact Hw.
    apply Forall_app. split; [exact Hw|].
    constructor; [split; assumption|constructor].
Qed.

Lemma run_turns_calls v phone ts w :
  Forall sendable (sendMessage_calls w) ->
  Forall sendable (sendMessage_calls (run_turns v phone ts w)).
Proof.
  revert w. induction ts as [|t ts IH]; intros w Hw; [exact Hw|].
  rewrite run_turns_cons. apply IH, turn_calls, Hw.
Qed.

(** ** POST /send-message: validation *)

(** C1.  A POST /send-message whose body has no [number] key or no
    [message] key is answered 400 with the error text that names both
    required fields.  The answer is the same in every state of the service,
    connected or not, because the field check comes before the connection
    check; nothing is logged and the provider is not called. *)
Theorem send_message_missing_field
    (w : World) (b : gmap string JsValue) (rejects : option JsError) :
  b !! "number" = None \/ b !! "message" = None ->
  post_send_message rejects b w = (Returned missing_fields_response, w)
  /\ statusCode missing_fields_response = 400
  /\ exists text,
       member "error" (body missing_fields_response) = Some (JString text)
       /\ String.index 0 "number" text = Some 15
       /\ String.index 0 "message" text = Some 24.
Proof.
  intros Hmiss. split; [|split].
  - apply send_message_falsy_field.
    destruct Hmiss as [H|H]; rewrite (prop_absent _ _ H); cbn [truthy andb].
    + reflexivity.
    + apply andb_false_r.
  - reflexivity.
  - eexists. repeat split; reflexivity.
Qed.

Lemma send_message_missing_field_witness :
  let w := after on_close initial_world in
  let b : gmap string JsValue := {[ "message" := JString "hola" ]} in
  (b !! "number" = None \/ b !! "message" = None)
  /\ isConnected (connectionStatus w) = false
  /\ post_send_message None b w = (Returned missing_fields_response, w).
Proof.
  intros w b.
  assert (Hb : b !! "number" = None \/ b !! "message" = None)
    by (left; reflexivity).
  split; [exact Hb|]. split; [reflexivity|].
  exact (proj1 (send_message_missing_field w b None Hb)).
Defined.

(** C2, as stated, fails when a field is there but falsy: with the service
    disconnected, a body whose [number] is the empty string is answered by
    the first guard, and that answer carries no [status] member. *)
Lemma send_message_empty_number_while_disconnected :
  let b : gmap string JsValue :=
    {[ "number" := JString ""; "message" := JString "hola" ]} in
  is_Some (b !! "number") /\ is_Some (b !! "message")
  /\ isConnected (connectionStatus initial_world) = false
  /\ result (post_send_message None b) initial_world
     = Returned missing_fields_response
  /\ member "status" (body missing_fields_response) = None
  /\ member "status" (body missing_fields_response)
     <> Some (JString "not_connected").
Proof.
  cbn zeta. repeat split; try (eexists; reflexivity); try reflexivity.
  discriminate.
Qed.

(** C2, amended.  When [number] and [message] are both there and truthy
    (for strings: not empty) and [isConnected] is false, the answer is 400
    with [status: "not_connected"], the state is left as it was and the
    provider's send primitive is not called. *)
Theorem send_message_not_connected
    (w : World) (b : gmap string JsValue) (rejects : option JsError) :
  truthy (prop b "number") = true ->
  truthy (prop b "message") = true ->
  isConnected (connectionStatus w) = false ->
  post_send_message rejects b w = (Returned not_connected_response, w)
  /\ statusCode not_connected_response = 400
  /\ member "status" (body not_connected_response)
     = Some (JString "not_connected")
  /\ sendMessage_calls (after (post_send_message rejects b) w)
     = sendMessage_calls w.
Proof.
  intros Hn Hm Hc. repeat split.
  - apply send_message_truthy_disconnected; assumption.
  - rewrite send_message_calls, Hn, Hm, Hc. reflexivity.
Qed.

Lemma send_message_not_connected_witness :
  let b : gmap string JsValue :=
    {[ "number" := JString "593987654321"; "message" := JString "hola" ]} in
  truthy (prop b "number") = true
  /\ truthy (prop b "message") = true
  /\ isConnected (connectionStatus initial_world) = false
  /\ post_send_message None b initial_world
     = (Returned not_connected_response, initial_world).
Proof.
  intros b. do 3 (split; [reflexivity|]).
  apply (send_message_not_connected initial_world b None); reflexivity.
Defined.

(** C9.  A [number] or [message] that is the empty string is answered
    exactly like a body without that key: 400 with the missing-fields
    error, state untouched.  No call the service ever makes to the
    provider's send primitive carries an empty string in either place. *)
Theorem empty_string_field_is_rejected
    (v : Variant) (phone : string) (ts : list Turn)
    (w : World) (b : gmap string JsValue) (rejects : option JsError) :
  post_send_message rejects (<["number" := JString ""]> b) w
    = (Returned missing_fields_response, w)
  /\ post_send_message rejects (<["message" := JString ""]> b) w
    = (Returned missing_fields_response, w)
  /\ post_send_message rejects (<["number" := JString ""]> b) w
    = post_send_message rejects (delete "number" b) w
  /\ post_send_message rejects (<["message" := JString ""]> b) w
    = post_send_message rejects (delete "message" b) w
  /\ Forall (fun c => c.1 <> JString "" /\ c.2 <> JString "")
       (sendMessage_calls (run_turns v phone ts initial_world)).
Proof.
  assert (Hnum : forall x, truthy x = false ->
            post_send_message rejects (<["number" := x]> b) w
            = (Returned missing_fields_response, w)).
  { intros x Hx. apply send_message_falsy_field.
    rewrite prop_insert, Hx. reflexivity. }
  assert (Hmsg : forall x, truthy x = false ->
            post_send_message rejects (<["message" := x]> b) w
            = (Returned missing_fields_response, w)).
  { intros x Hx. apply send_message_falsy_field.
    rewrite prop_insert, Hx. apply andb_false_r. }
  repeat split.
  - apply Hnum. reflexivity.
  - apply Hmsg. reflexivity.
  - rewrite Hnum by reflexivity. symmetry. apply send_message_falsy_field.
    rewrite prop_delete. reflexivity.
  - rewrite Hmsg by reflexivity. symmetry. apply send_message_falsy_field.
    rewrite prop_delete. apply andb_false_r.
  - eapply Forall_impl.
    + apply (run_turns_calls v phone ts initial_world). constructor.
    + intros [n m] [Hn Hm]. cbn in *. split; intros ->; discriminate.
Qed.

(** ** The connection-state tracker *)

(** C3, as stated, fails for [pairing-code]: the listener of the
    pairing-code revision only prints, and the QR revision registers none.
    Emitted first thing after start-up, the event leaves the status
    [disconnected], not [connecting]. *)
Lemma pairing_code_leaves_status :
  connectionStatus
    (after (emit PairingCodeRevision "593987654321" (PairingCode "ABCD1234"))
       initial_world)
  = {| isConnected := false; status := Disconnected |}
  /\ connectionStatus
       (after (emit QrRevision "593987654321" (PairingCode "ABCD1234"))
          initial_world)
     = {| isConnected := false; status := Disconnected |}
  /\ {| isConnected := false; status := Disconnected |}
     <> {| isConnected := false; status := Connecting |}.
Proof. repeat split; try reflexivity. discriminate. Qed.

(** C3, amended.  In both revisions and from every state: [ready] sets
    [{isConnected: true, status: 'connected'}], [qr] sets
    [{isConnected: false, status: 'connecting'}], [error] sets
    [{isConnected: false, status: 'error'}], [close] sets
    [{isConnected: false, status: 'disconnected'}], and [pairing-code]
    leaves [connectionStatus] as it was. *)
Theorem lifecycle_events_set_status
    (v : Variant) (phone : string) (w : World) :
  connectionStatus (after (emit v phone Ready) w)
    = {| isConnected := true; status := Connected |}
  /\ (forall qr, connectionStatus (after (emit v phone (Qr qr)) w)
        = {| isConnected := false; status := Connecting |})
  /\ (forall error, connectionStatus (after (emit v phone (ProviderError error)) w)
        = {| isConnected := false; status := Error |})
  /\ connectionStatus (after (emit v phone Close) w)
        = {| isConnected := false; status := Disconnected |}
  /\ (forall code, connectionStatus (after (emit v phone (PairingCode code)) w)
        = connectionStatus w).
Proof.
  repeat split; try reflexivity; intros; destruct v; reflexivity.
Qed.

Lemma auth_failure_after v phone error w :
  after (emit v phone (AuthFailure error)) w
  = {| connectionStatus := {| isConnected := false; status := Error |};
       console := (console w ++
         [mkLine Log [LText "❌ Fallo de autenticación WhatsApp"];
          mkLine Log [LText "⚡⚡ ERROR AUTH ⚡⚡"];
          mkLine Log [LText "Detalles del error:"; LValue error]])%list;
       timers := (timers w ++ [{| due := now w + 5000;
                                  callback := RetryConnecting |}])%list;
       now := now w;
       sendMessage_calls := sendMessage_calls w |}.
Proof.
  cbn [emit]. unfold on_auth_failure. step_monad.
  cbn [connectionStatus console timers now sendMessage_calls write_line
       World_console].
  unfold write_line, World_console.
  cbn [connectionStatus console timers now sendMessage_calls].
  rewrite <- !app_assoc. reflexivity.
Qed.

Lemma auth_failures_timers v phone error n w :
  length (timers (run_turns v phone (auth_failures n error) w))
  = length (timers w) + n.
Proof.
  revert w. induction n as [|n IH]; intros w.
  - cbn. lia.
  - unfold auth_failures. cbn [replicate]. rewrite run_turns_cons.
    fold (auth_failures n error). rewrite IH, after_turn, auth_failure_after.
    cbn [timers]. rewrite length_app. cbn [length]. lia.
Qed.

(** A provider event never takes a timer off the pending list. *)
Lemma emit_timers v phone e w :
  exists added, timers (after (emit v phone e) w) = (timers w ++ added)%list.
Proof.
  destruct e.
  - rewrite auth_failure_after. eexists. reflexivity.
  - exists []. rewrite app_nil_r. reflexivity.
  - exists []. rewrite app_nil_r. destruct v; reflexivity.
  - exists []. rewrite app_nil_r. destruct v; reflexivity.
  - exists []. rewrite app_nil_r. reflexivity.
  - exists []. rewrite app_nil_r. reflexivity.
Qed.

(** What a timer tick does: nothing when no timer is pending or the oldest
    one is not yet due, and otherwise it takes the oldest timer off the list
    and runs its callback. *)
Lemma fire_timer_after w :
  after fire_timer w
  = match timers w with
    | [] => w
    | t :: rest => if (due t <=? now w)%nat then retried rest w else w
    end.
Proof.
  unfold fire_timer. step_monad.
  destruct (timers w) as [|[d []] rest] eqn:Ht; [reflexivity|].
  cbn [due callback]. destruct (d <=? now w)%nat; [|reflexivity].
  unfold run_callback, retried. step_monad.
  cbn [write_line World_console
       connectionStatus console timers now sendMessage_calls].
  rewrite Ht. reflexivity.
Qed.

(** C5.  [auth_failure] sets [{isConnected: false, status: 'error'}] at
    once and adds one pending timer, due 5000 ms later, whose callback sets
    [{isConnected: false, status: 'connecting'}].  Each event adds its own
    timer: [n] failures in a row leave [n] more pending.  Nothing cancels a
    timer: provider events only ever append to the pending list, route
    handlers and the passing of time leave it alone, and a timer leaves the
    list only by firing, which happens no earlier than its due time.  A
    timer that is due does fire: a tick takes the oldest pending timer, once
    its due time is reached, off the list and runs its callback, so the
    status is [connecting] afterwards.  In particular, [ms] milliseconds
    after an [auth_failure] a tick finds the status [error] and turns it
    into [connecting] exactly when a timer is due by then: the new one, if
    none was pending before, which is due when [ms] reaches 5000. *)
Theorem auth_failure_schedules_retry
    (v : Variant) (phone : string) (error : JsValue) (w : World) :
  connectionStatus (after (emit v phone (AuthFailure error)) w)
    = {| isConnected := false; status := Error |}
  /\ timers (after (emit v phone (AuthFailure error)) w)
     = (timers w ++ [{| due := now w + 5000; callback := RetryConnecting |}])%list
  /\ connectionStatus (after (run_callback RetryConnecting) w)
     = {| isConnected := false; status := Connecting |}
  /\ (forall n, length (timers (run_turns v phone (auth_failures n error) w))
                = length (timers w) + n)
  /\ (forall e, exists added,
        timers (after (emit v phone e) w) = (timers w ++ added)%list)
  /\ (forall r, timers (after (serve r) w) = timers w)
  /\ (forall ms, timers (after (elapse ms) w) = timers w)
  /\ (after fire_timer w = w
      \/ exists t, timers w = t :: timers (after fire_timer w)
           /\ due t <= now w
           /\ connectionStatus (after fire_timer w)
              = {| isConnected := false; status := Connecting |})
  /\ after (turn v phone TimerFires) w
     = match timers w with
       | [] => w
       | t :: rest => if (due t <=? now w)%nat then retried rest w else w
       end
  /\ (forall ms,
        connectionStatus
          (run_turns v phone
             [ProviderEmits (AuthFailure error); TimePasses ms; TimerFires] w)
        = {| isConnected := false;
             status :=
               match timers w with
               | [] => if (5000 <=? ms)%nat then Connecting else Error
               | t :: _ =>
                   if (due t <=? now w + ms)%nat then Connecting else Error
               end |}).
Proof.
  rewrite auth_failure_after.
  do 3 (split; [reflexivity|]).
  split; [intros n; apply auth_failures_timers|].
  split; [intros e; apply emit_timers|].
  split; [intros r; apply serve_frame|].
  split; [reflexivity|].
  split.
  { destruct (fire_timer_cases w) as [H|(t & rest & Ht & Hdue & H)].
    - left. exact H.
    - right. exists t. rewrite H. cbn [timers connectionStatus]. auto. }
  split; [rewrite after_turn; apply fire_timer_after|].
  intros ms. rewrite !run_turns_cons. cbn [run_turns foldl].
  rewrite !after_turn, fire_timer_after, auth_failure_after.
  unfold elapse. step_monad.
  cbn [connectionStatus console timers now sendMessage_calls].
  destruct (timers w) as [|t rest]; cbn [app due].
  - destruct (Nat.leb_spec (now w + 5000) (now w + ms)),
             (Nat.leb_spec 5000 ms); try lia; reflexivity.
  - destruct (due t <=? now w + ms)%nat; reflexivity.
Qed.

(** One failure followed on the clock: the status is [error]
    until the five seconds are over, a firing attempted at 4999 ms does
    nothing, and the one at 5000 ms sets [connecting] and empties the
    pending list. *)
Example retry_fires_after_five_seconds :
  let early := run_turns QrRevision "593987654321"
                 [ProviderEmits (AuthFailure JNull); TimePasses 4999; TimerFires]
                 initial_world in
  let late := run_turns QrRevision "593987654321"
                [TimePasses 1; TimerFires] early in
  connectionStatus early = {| isConnected := false; status := Error |}
  /\ length (timers early) = 1
  /\ connectionStatus late = {| isConnected := false; status := Connecting |}
  /\ timers late = [].
Proof. repeat split. Qed.

(** ** Consistency of the two fields *)

Lemma consistent_literals :
  consistent {| isConnected := true; status := Connected |}
  /\ consistent {| isConnected := false; status := Connecting |}
  /\ consistent {| isConnected := false; status := Disconnected |}
  /\ consistent {| isConnected := false; status := Error |}.
Proof. unfold consistent; cbn. repeat split; intros; congruence. Qed.

(** A turn either leaves [connectionStatus] alone or assigns one of the
    four literals of the source, each of which is consistent. *)
Lemma turn_status v phone t w :
  connectionStatus (after (turn v phone t) w) = connectionStatus w
  \/ consistent (connectionStatus (after (turn v phone t) w)).
Proof.
  destruct consistent_literals as (Hc & Hg & Hd & He).
  rewrite after_turn. destruct t as [e| |ms|r].
  - destruct e as [error| |qr|code|error|].
    + right. rewrite auth_failure_after. exact He.
    + right. exact Hc.
    + right. destruct v; exact Hg.
    + left. destruct v; reflexivity.
    + right. exact He.
    + right. exact Hd.
  - destruct (fire_timer_cases w) as [->|(t & rest & _ & _ & ->)].
    + left. reflexivity.
    + right. exact Hg.
  - left. reflexivity.
  - left. apply serve_frame.
Qed.

Lemma run_turns_consistent v phone ts w :
  consistent (connectionStatus w) ->
  consistent (connectionStatus (run_turns v phone ts w)).
Proof.
  revert w. induction ts as [|t ts IH]; intros w Hw; [exact Hw|].
  rewrite run_turns_cons. apply IH.
  destruct (turn_status v phone t w) as [->|H]; assumption.
Qed.

(** C7.  [isConnected] is true exactly when [status] is ['connected']: in
    the initial state, after any single turn that assigns
    [connectionStatus] (provider listener or timer callback; the other
    turns do not assign it), and so in every state the service can reach. *)
Theorem connection_status_consistent (v : Variant) (phone : string) :
  consistent (connectionStatus initial_world)
  /\ (forall t w,
        connectionStatus (after (turn v phone t) w) = connectionStatus w
        \/ consistent (connectionStatus (after (turn v phone t) w)))
  /\ (forall ts,
        consistent (connectionStatus (run_turns v phone ts initial_world))).
Proof.
  assert (H0 : consistent (connectionStatus initial_world))
    by apply consistent_literals.
  split; [exact H0|]. split.
  - intros t w. apply turn_status.
  - intros ts. apply run_turns_consistent, H0.
Qed.

(** ** Route handlers only read the status *)

Lemma requests_frame v phone rs w :
  connectionStatus (run_turns v phone (map Request rs) w) = connectionStatus w.
Proof.
  revert w. induction rs as [|r rs IH]; intros w; [reflexivity|].
  cbn [map]. rewrite run_turns_cons, IH, after_turn. apply serve_frame.
Qed.

Lemma get_status_result w :
  result get_status w = Returned (status_report (connectionStatus w)).
Proof. reflexivity. Qed.

(** C8.  No route handler writes [connectionStatus], whatever branch it
    takes: the state after serving a request, and after serving any run of
    requests, has the [connectionStatus] it had before, so GET /status
    answers the same after them as before them.  A turn that does change
    [connectionStatus] is a provider event or a timer firing. *)
Theorem http_handlers_leave_status
    (v : Variant) (phone : string) (w : World) :
  (forall r, connectionStatus (after (serve r) w) = connectionStatus w)
  /\ (forall rs,
        connectionStatus (run_turns v phone (map Request rs) w)
        = connectionStatus w)
  /\ (forall rs,
        result get_status (run_turns v phone (map Request rs) w)
        = result get_status w)
  /\ (forall t,
        connectionStatus (after (turn v phone t) w) = connectionStatus w
        \/ (exists e, t = ProviderEmits e) \/ t = TimerFires).
Proof.
  split; [intros r; apply serve_frame|].
  split; [intros rs; apply requests_frame|].
  split.
  - intros rs. rewrite !get_status_result, requests_frame. reflexivity.
  - intros t. destruct t as [e| |ms|r].
    + right. left. exists e. reflexivity.
    + right. right. reflexivity.
    + left. reflexivity.
    + left. rewrite after_turn. apply serve_frame.
Qed.

(** C10.  Two GET /status requests served under the same
    [connectionStatus] get the same answer, whatever else differs between
    the two states.  The answer is a 200 whose [message] is the
    connected-and-ready text when [isConnected] is true and the
    not-connected text otherwise, and the two texts differ. *)
Theorem status_response_depends_on_status_only (w1 w2 : World) :
  connectionStatus w1 = connectionStatus w2 ->
  result get_status w1 = result get_status w2
  /\ (exists resp,
        result get_status w1 = Returned resp
        /\ statusCode resp = 200
        /\ member "message" (body resp)
           = Some (JString
               (if isConnected (connectionStatus w1)
                then "✅ WhatsApp conectado y listo para enviar mensajes"
                else "⏳ WhatsApp no conectado")))
  /\ "✅ WhatsApp conectado y listo para enviar mensajes"
     <> "⏳ WhatsApp no conectado".
Proof.
  intros Heq. split; [|split].
  - rewrite !get_status_result, Heq. reflexivity.
  - exists (status_report (connectionStatus w1)).
    split; [apply get_status_result|]. split; reflexivity.
  - discriminate.
Qed.

Lemma status_response_depends_on_status_only_witness :
  let w1 := after on_ready initial_world in
  let w2 := after (post_send_message None
                     {[ "number" := JString "593987654321";
                        "message" := JString "hola" ]}) w1 in
  connectionStatus w1 = connectionStatus w2
  /\ w1 <> w2
  /\ result get_status w1 = result get_status w2.
Proof.
  intros w1 w2.
  split; [reflexivity|]. split; [discriminate|].
  apply (status_response_depends_on_status_only w1 w2). reflexivity.
Defined.

(** ** GET /status after [ready] and [close] *)

(** C4, as stated, fails when a retry timer is pending: [auth_failure],
    then [ready], then five seconds without any provider event; the timer
    of the [auth_failure] listener fires and GET /status reports
    [connecting], in both revisions. *)
Lemma stale_retry_timer_overrides_ready :
  let ts := [ProviderEmits (AuthFailure (JString "401"));
             ProviderEmits Ready;
             TimePasses 5000;
             TimerFires] in
  result get_status (run_turns PairingCodeRevision "593987654321" ts initial_world)
  = Returned
      {| statusCode := 200;
         headers := [("Content-Type", "application/json")];
         body := JObject
           [("isConnected", JBool false);
            ("status", JString "connecting");
            ("message", JString "⏳ WhatsApp no conectado")] |}
  /\ result get_status (run_turns QrRevision "593987654321" ts initial_world)
     = result get_status
         (run_turns PairingCodeRevision "593987654321" ts initial_world).
Proof. split; reflexivity. Qed.

Lemma quiet_frame v phone ts w :
  forallb quiet ts = true ->
  connectionStatus (run_turns v phone ts w) = connectionStatus w.
Proof.
  revert w. induction ts as [|t ts IH]; intros w Hq; [reflexivity|].
  cbn [forallb] in Hq. apply andb_prop in Hq as [Ht Hts].
  rewrite run_turns_cons, (IH _ Hts), after_turn.
  destruct t as [e| |ms|r]; try discriminate Ht.
  - reflexivity.
  - apply serve_frame.
Qed.

(** C4, amended.  After [ready], every GET /status answers 200 with
    [isConnected: true] and [status: "connected"] as long as no provider
    event and no timer callback has run in between (requests and the
    passing of time may); after a later [close], under the same condition,
    it answers [isConnected: false] and [status: "disconnected"]. *)
Theorem status_after_ready_then_close
    (v : Variant) (phone : string) (w : World) (ts1 ts2 : list Turn) :
  forallb quiet ts1 = true ->
  forallb quiet ts2 = true ->
  let w1 := run_turns v phone ts1 (after (emit v phone Ready) w) in
  let w2 := run_turns v phone ts2 (after (emit v phone Close) w1) in
  (exists resp,
     result get_status w1 = Returned resp
     /\ statusCode resp = 200
     /\ member "isConnected" (body resp) = Some (JBool true)
     /\ member "status" (body resp) = Some (JString "connected"))
  /\ (exists resp,
        result get_status w2 = Returned resp
        /\ statusCode resp = 200
        /\ member "isConnected" (body resp) = Some (JBool false)
        /\ member "status" (body resp) = Some (JString "disconnected")).
Proof.
  intros H1 H2 w1 w2. split.
  - exists (status_report (connectionStatus w1)).
    split; [apply get_status_result|].
    unfold w1. rewrite (quiet_frame _ _ _ _ H1).
    repeat split.
  - exists (status_report (connectionStatus w2)).
    split; [apply get_status_result|].
    unfold w2. rewrite (quiet_frame _ _ _ _ H2).
    repeat split.
Qed.

Lemma status_after_ready_then_close_witness :
  let ts1 := [Request GetStatus; TimePasses 1000; Request GetRoot] in
  let ts2 := [TimePasses 250] in
  let w1 := run_turns QrRevision "593987654321" ts1
              (after (emit QrRevision "593987654321" Ready) initial_world) in
  let w2 := run_turns QrRevision "593987654321" ts2
              (after (emit QrRevision "593987654321" Close) w1) in
  forallb quiet ts1 = true /\ forallb quiet ts2 = true
  /\ (exists resp,
        result get_status w1 = Returned resp
        /\ statusCode resp = 200
        /\ member "isConnected" (body resp) = Some (JBool true)
        /\ member "status" (body resp) = Some (JString "connected"))
  /\ (exists resp,
        result get_status w2 = Returned resp
        /\ statusCode resp = 200
        /\ member "isConnected" (body resp) = Some (JBool false)
        /\ member "status" (body resp) = Some (JString "disconnected")).
Proof.
  intros ts1 ts2 w1 w2.
  split; [reflexivity|]. split; [reflexivity|].
  apply (status_after_ready_then_close QrRevision "593987654321"
           initial_world ts1 ts2); reflexivity.
Defined.

(** ** Start-up validation *)

Ltac run_startup fails :=
  unfold startup, main, validateConfig, external;
  step_monad;
  cbn [truthy WHATSAPP_PHONE env_WHATSAPP_PHONE_NUMBER negb fst snd];
  unfold write_line, Effects_console;
  repeat (match goal with
          | |- context [fails ?c] => destruct (fails c)
          end; cbn [fst snd app]).

(** Validation is the first thing [main] does: what it prints comes before
    every other effect of the process. *)
Lemma startup_begins_with_validation v env fails :
  exists rest,
    startup v env fails = (after (validateConfig env) [] ++ rest)%list.
Proof.
  destruct env as [port [[|c phone]|]].
  - eexists. reflexivity.
  - destruct v; run_startup fails; eexists; reflexivity.
  - eexists. reflexivity.
Qed.

Lemma validation_binds_no_port env :
  existsb binds_port (after (validateConfig env) []) = false.
Proof. destruct env as [port [[|c phone]|]]; reflexivity. Qed.

(** C6.  With WHATSAPP_PHONE_NUMBER absent, all [main] does is print the
    start-up error, carrying the message of the [Error] that
    [validateConfig] threw, and exit with code 1: [httpServer] is never
    called, whatever PORT is and however the libraries would have behaved.
    In every environment the effects of [validateConfig] are the first
    effects of the process and none of them is the [httpServer] call, so
    validation runs before the server is started; and [httpServer] is
    never called in a run whose validation failed. *)
Theorem missing_phone_number_exits_before_listening
    (v : Variant) (port : option string)
    (fails : ExternalCall -> option JsError) :
  startup v {| env_PORT := port; env_WHATSAPP_PHONE_NUMBER := None |} fails
  = startup_failure
      (new_Error "WHATSAPP_PHONE_NUMBER environment variable is required")
  /\ existsb binds_port
       (startup v {| env_PORT := port; env_WHATSAPP_PHONE_NUMBER := None |}
          fails) = false
  /\ (1 <> 0)%Z
  /\ (forall env, exists rest,
        startup v env fails = (after (validateConfig env) [] ++ rest)%list
        /\ existsb binds_port (after (validateConfig env) []) = false)
  /\ (forall env,
        existsb binds_port (startup v env fails)
        && negb (truthy (WHATSAPP_PHONE env)) = false).
Proof.
  split; [reflexivity|]. split; [reflexivity|]. split; [discriminate|].
  split.
  - intros env.
    destruct (startup_begins_with_validation v env fails) as [rest H].
    exists rest. split; [exact H|apply validation_binds_no_port].
  - intros [p [[|c phone]|]]; try reflexivity.
    cbn [WHATSAPP_PHONE env_WHATSAPP_PHONE_NUMBER truthy negb].
    apply andb_false_r.
Qed.

(** * Further properties of the handlers *)

(** ** POST /send-message beyond the two guards *)

(** X1.  The missing-fields answer is given exactly when [number] or
    [message] is falsy: absent, [null], [false], [0] or the empty string
    all count as missing, and nothing else does. *)
Theorem missing_fields_iff_falsy
    (w : World) (b : gmap string JsValue) (rejects : option JsError) :
  (result (post_send_message rejects b) w = Returned missing_fields_response
   <-> truthy (prop b "number") && truthy (prop b "message") = false)
  /\ Forall (fun x =>
       post_send_message rejects (<["number" := x]> b) w
         = (Returned missing_fields_response, w)
       /\ post_send_message rejects (<["message" := x]> b) w
         = (Returned missing_fields_response, w))
       [JUndefined; JNull; JBool false; JNumber 0; JString ""].
Proof.
  split.
  - split.
    + unfold result. send_message_cases b w rejects;
        intros H; cbn [fst] in H; try reflexivity; discriminate H.
    + intros H. unfold result.
      rewrite (send_message_falsy_field _ _ _ H). reflexivity.
  - repeat constructor;
      apply send_message_falsy_field; rewrite prop_insert;
      first [reflexivity | apply andb_false_r].
Qed.

Lemma missing_fields_iff_falsy_witness :
  let b : gmap string JsValue :=
    {[ "number" := JNumber 0; "message" := JString "hola" ]} in
  truthy (prop b "number") && truthy (prop b "message") = false
  /\ result (post_send_message None b) (after on_ready initial_world)
     = Returned missing_fields_response.
Proof.
  intros b. split; [reflexivity|].
  apply (proj1 (missing_fields_iff_falsy (after on_ready initial_world) b None)).
  reflexivity.
Defined.

(** X2.  With both fields truthy, the service connected and the provider
    resolving, the answer is 200 with [success: true] and [to] equal to the
    request's [number]; the provider is called once, with the two values
    exactly as received (no conversion, no check that they are strings), and
    nothing else in the state changes. *)
Theorem send_message_forwards
    (w : World) (b : gmap string JsValue) :
  truthy (prop b "number") = true ->
  truthy (prop b "message") = true ->
  isConnected (connectionStatus w) = true ->
  post_send_message None b w
  = (Returned (success_response (prop b "number")),
     called (prop b "number") (prop b "message") w)
  /\ member "to" (body (success_response (prop b "number")))
     = Some (prop b "number")
  /\ member "success" (body (success_response (prop b "number")))
     = Some (JBool true).
Proof.
  intros Hn Hm Hc. split; [|split; reflexivity].
  unfold post_send_message. rewrite Hn, Hm. step_monad. rewrite Hc.
  reflexivity.
Qed.

Lemma send_message_forwards_witness :
  let w := after on_ready initial_world in
  let b : gmap string JsValue :=
    {[ "number" := JNumber 593987654321; "message" := JString "hola" ]} in
  truthy (prop b "number") = true
  /\ truthy (prop b "message") = true
  /\ isConnected (connectionStatus w) = true
  /\ post_send_message None b w
     = (Returned (success_response (JNumber 593987654321)),
        called (JNumber 593987654321) (JString "hola") w).
Proof.
  intros w b. do 3 (split; [reflexivity|]).
  apply (send_message_forwards w b); reflexivity.
Defined.

(** X3.  When the provider rejects, the answer is 500 with [details] equal
    to the message of the caught error.  The call was made once and is not
    repeated, one [console.error] line is written, and [connectionStatus]
    stays as it was: a failed send does not mark the service disconnected,
    so GET /status answers as before. *)
Theorem send_message_provider_rejects
    (w : World) (b : gmap string JsValue) (e : JsError) :
  truthy (prop b "number") = true ->
  truthy (prop b "message") = true ->
  isConnected (connectionStatus w) = true ->
  let w' := after (post_send_message (Some e) b) w in
  result (post_send_message (Some e) b) w = Returned (failure_response e)
  /\ member "details" (body (failure_response e)) = Some (JString (message e))
  /\ sendMessage_calls w'
     = (sendMessage_calls w ++ [(prop b "number", prop b "message")])%list
  /\ console w'
     = (console w ++ [mkLine LogError
          [LText "❌ Error al enviar mensaje:"; LThrown e]])%list
  /\ connectionStatus w' = connectionStatus w
  /\ result get_status w' = result get_status w.
Proof.
  intros Hn Hm Hc w'.
  assert (Hrun : post_send_message (Some e) b w
    = (Returned (failure_response e),
       write_line (mkLine LogError
                     [LText "❌ Error al enviar mensaje:"; LThrown e])
         (called (prop b "number") (prop b "message") w))).
  { unfold post_send_message. rewrite Hn, Hm. step_monad. rewrite Hc.
    reflexivity. }
  unfold w', result, after. rewrite Hrun. cbn [fst snd].
  repeat split.
Qed.

Lemma send_message_provider_rejects_witness :
  let w := after on_ready initial_world in
  let b : gmap string JsValue :=
    {[ "number" := JString "593987654321"; "message" := JString "hola" ]} in
  let e := new_Error "Connection Closed" in
  truthy (prop b "number") = true
  /\ truthy (prop b "message") = true
  /\ isConnected (connectionStatus w) = true
  /\ result (post_send_message (Some e) b) w = Returned (failure_response e).
Proof.
  intros w b e. do 3 (split; [reflexivity|]).
  apply (send_message_provider_rejects w b e); reflexivity.
Defined.

(** ** What a request can and cannot do *)

(** X4.  A request leaves the whole state untouched (no log line, no
    timer, no provider call) unless it is a POST /send-message that passes
    both guards. *)
Theorem request_touches_state_only_when_forwarding (r : HttpRequest) (w : World) :
  after (serve r) w = w
  \/ exists b rejects,
       r = PostSendMessage b rejects
       /\ truthy (prop b "number") = true
       /\ truthy (prop b "message") = true
       /\ isConnected (connectionStatus w) = true.
Proof.
  destruct r as [| |b rejects]; cbn [serve]; try (left; reflexivity).
  destruct (truthy (prop b "number") && truthy (prop b "message")) eqn:Hf.
  - apply andb_prop in Hf as [Hn Hm].
    destruct (isConnected (connectionStatus w)) eqn:Hc.
    + right. exists b, rejects. auto.
    + left. unfold after.
      rewrite (send_message_truthy_disconnected _ _ _ Hn Hm Hc). reflexivity.
  - left. unfold after. rewrite (send_message_falsy_field _ _ _ Hf).
    reflexivity.
Qed.

(** X5.  Every answer of every route is JSON with status 200, 400 or 500,
    and its body has an [error] member exactly when the status is not 200. *)
Theorem responses_are_json (r : HttpRequest) (w : World) :
  exists resp,
    result (serve r) w = Returned resp
    /\ headers resp = [("Content-Type", "application/json")]
    /\ In (statusCode resp) [200; 400; 500]
    /\ (statusCode resp = 200 <-> member "error" (body resp) = None).
Proof.
  destruct r as [| |b rejects]; cbn [serve].
  - eexists. split; [reflexivity|]. cbn. intuition.
  - eexists. split; [reflexivity|]. cbn. intuition.
  - unfold result. send_message_cases b w rejects;
      (eexists; split; [reflexivity|]; cbn; intuition discriminate).
Qed.

Lemma turn_calls_length v phone t w :
  length (sendMessage_calls (after (turn v phone t) w))
  <= length (sendMessage_calls w) + (if is_post t then 1 else 0).
Proof.
  rewrite after_turn. destruct t as [e| |ms|r].
  - rewrite emit_calls. cbn. lia.
  - destruct (fire_timer_cases w) as [->|(t & rest & _ & _ & ->)]; cbn; lia.
  - cbn. lia.
  - destruct r as [| |b rejects]; cbn [serve is_post];
      try exact (Nat.le_add_r (length (sendMessage_calls w)) 0).
    rewrite send_message_calls.
    destruct (truthy (prop b "number") && truthy (prop b "message")
              && isConnected (connectionStatus w)).
    + rewrite length_app. cbn. lia.
    + lia.
Qed.

(** X6.  One request, at most one forward: over any run of the service the
    provider's send primitive is called at most once per POST /send-message
    served.  Nothing is retried or queued, and provider events, timers and
    the other routes never send. *)
Theorem at_most_one_forward_per_post
    (v : Variant) (phone : string) (ts : list Turn) (w : World) :
  length (sendMessage_calls (run_turns v phone ts w))
  <= length (sendMessage_calls w) + length (List.filter is_post ts).
Proof.
  revert w. induction ts as [|t ts IH]; intros w; [cbn; lia|].
  rewrite run_turns_cons. specialize (IH (after (turn v phone t) w)).
  pose proof (turn_calls_length v phone t w) as Ht.
  cbn [List.filter]. destruct (is_post t); cbn [length] in *; lia.
Qed.

Lemma turn_stays_disconnected v phone t w :
  isConnected (connectionStatus w) = false ->
  is_ready t = false ->
  isConnected (connectionStatus (after (turn v phone t) w)) = false
  /\ sendMessage_calls (after (turn v phone t) w) = sendMessage_calls w.
Proof.
  intros Hc Ht. rewrite after_turn. destruct t as [e| |ms|r].
  - rewrite emit_calls. split; [|reflexivity].
    destruct e as [error| |qr|code|error|]; try discriminate Ht;
      try reflexivity; destruct v; first [reflexivity | exact Hc].
  - destruct (fire_timer_cases w) as [->|(t & rest & _ & _ & ->)];
      split; first [exact Hc | reflexivity].
  - split; [exact Hc|reflexivity].
  - destruct (serve_frame r w) as (Hs & _). rewrite Hs. split; [exact Hc|].
    destruct r as [| |b rejects]; try reflexivity.
    cbn [serve]. rewrite send_message_calls, Hc, andb_false_r. reflexivity.
Qed.

(** X7.  Only [ready] connects.  From a state with [isConnected] false, a
    run without a [ready] event (whatever else happens: other provider
    events, timers, requests) ends with [isConnected] still false and
    without a single call to the provider's send primitive.  From start-up
    this means no message is forwarded before the first [ready]. *)
Theorem nothing_sent_before_ready
    (v : Variant) (phone : string) (ts : list Turn) (w : World) :
  isConnected (connectionStatus w) = false ->
  forallb (fun t => negb (is_ready t)) ts = true ->
  isConnected (connectionStatus (run_turns v phone ts w)) = false
  /\ sendMessage_calls (run_turns v phone ts w) = sendMessage_calls w.
Proof.
  revert w. induction ts as [|t ts IH]; intros w Hc Hts; [auto|].
  cbn [forallb] in Hts. apply andb_prop in Hts as [Ht Hts].
  apply negb_true_iff in Ht.
  destruct (turn_stays_disconnected v phone t w Hc Ht) as [Hc' Hs'].
  rewrite run_turns_cons.
  destruct (IH _ Hc' Hts) as [H1 H2]. rewrite H1, H2. auto.
Qed.

Lemma nothing_sent_before_ready_witness :
  let ts := [ProviderEmits (Qr "2@abc");
             Request (PostSendMessage
                        {[ "number" := JString "593987654321";
                           "message" := JString "hola" ]} None);
             ProviderEmits (AuthFailure JNull);
             TimePasses 5000; TimerFires;
             Request (PostSendMessage
                        {[ "number" := JString "593987654321";
                           "message" := JString "hola" ]} None)] in
  isConnected (connectionStatus initial_world) = false
  /\ forallb (fun t => negb (is_ready t)) ts = true
  /\ sendMessage_calls (run_turns QrRevision "593987654321" ts initial_world)
     = [].
Proof.
  intros ts. do 2 (split; [reflexivity|]).
  apply (nothing_sent_before_ready QrRevision "593987654321" ts initial_world);
    reflexivity.
Defined.

(** ** What moves the status *)

Lemma status_text_connected (st : Status) :
  status_text st = "connected" <-> st = Connected.
Proof. destruct st; cbn; split; intros H; try reflexivity; discriminate H. Qed.

(** X8.  In every state the service can reach from start-up, GET /status
    answers 200 with an [isConnected] flag and a [status] string that agree:
    the flag is true exactly when the string is "connected", and the string
    is one of the four names of the union type. *)
Theorem status_endpoint_is_coherent
    (v : Variant) (phone : string) (ts : list Turn) :
  exists (flag : bool) (name text : string),
    result get_status (run_turns v phone ts initial_world)
    = Returned
        {| statusCode := 200;
           headers := [("Content-Type", "application/json")];
           body := JObject [("isConnected", JBool flag);
                            ("status", JString name);
                            ("message", JString text)] |}
    /\ (flag = true <-> name = "connected")
    /\ In name ["connected"; "connecting"; "disconnected"; "error"].
Proof.
  pose proof (run_turns_consistent v phone ts initial_world
                (proj1 (proj2 (proj2 consistent_literals)))) as Hcons.
  set (w := run_turns v phone ts initial_world) in *.
  exists (isConnected (connectionStatus w)),
         (status_text (status (connectionStatus w))).
  eexists. split; [apply get_status_result|]. split.
  - rewrite status_text_connected. exact Hcons.
  - destruct (status (connectionStatus w)); cbn; auto.
Qed.

Lemma turn_without_timers v phone t w :
  timers w = [] ->
  is_provider_event t = false ->
  connectionStatus (after (turn v phone t) w) = connectionStatus w
  /\ timers (after (turn v phone t) w) = [].
Proof.
  intros Hno Ht. rewrite after_turn. destruct t as [e| |ms|r].
  - discriminate Ht.
  - unfold fire_timer. step_monad. rewrite Hno. cbn. auto.
  - auto.
  - destruct (serve_frame r w) as (Hs & Hti & _). rewrite Hs, Hti. auto.
Qed.

(** X9.  The status has exactly two movers.  From a state with no pending
    timer, a run without provider events (requests, time passing, timer
    ticks) leaves [connectionStatus] as it was and schedules nothing: an
    [error] or [close] is never recovered from by the service itself. *)
Theorem status_stays_without_events
    (v : Variant) (phone : string) (ts : list Turn) (w : World) :
  timers w = [] ->
  forallb (fun t => negb (is_provider_event t)) ts = true ->
  connectionStatus (run_turns v phone ts w) = connectionStatus w
  /\ timers (run_turns v phone ts w) = [].
Proof.
  revert w. induction ts as [|t ts IH]; intros w Hno Hts; [auto|].
  cbn [forallb] in Hts. apply andb_prop in Hts as [Ht Hts].
  apply negb_true_iff in Ht.
  destruct (turn_without_timers v phone t w Hno Ht) as [Hs Hno'].
  rewrite run_turns_cons.
  destruct (IH _ Hno' Hts) as [H1 H2]. rewrite H1, H2, Hs. auto.
Qed.

Lemma status_stays_without_events_witness :
  let w := after (emit QrRevision "593987654321" (ProviderError JNull))
             initial_world in
  let ts := [TimePasses 4000; TimerFires; Request GetStatus;
             Request (PostSendMessage ∅ None); TimePasses 4000; TimerFires] in
  timers w = []
  /\ forallb (fun t => negb (is_provider_event t)) ts = true
  /\ connectionStatus (run_turns QrRevision "593987654321" ts w)
     = {| isConnected := false; status := Error |}.
Proof.
  intros w ts. do 2 (split; [reflexivity|]).
  apply (status_stays_without_events QrRevision "593987654321" ts w);
    reflexivity.
Defined.

(** X10.  The retry delay is exact.  After an [auth_failure] with no other
    timer pending, a timer tick [ms] milliseconds later sets [connecting]
    when [ms] is at least 5000 and leaves [error] when it is less. *)
Theorem retry_fires_at_five_seconds
    (v : Variant) (phone : string) (error : JsValue) (ms : nat) (w : World) :
  timers w = [] ->
  connectionStatus
    (run_turns v phone
       [ProviderEmits (AuthFailure error); TimePasses ms; TimerFires] w)
  = {| isConnected := false;
       status := if (5000 <=? ms)%nat then Connecting else Error |}.
Proof.
  intros Hno. rewrite !run_turns_cons. cbn [run_turns foldl].
  rewrite !after_turn, auth_failure_after, Hno.
  unfold fire_timer, elapse. step_monad.
  cbn [timers now due callback app].
  destruct (5000 <=? ms)%nat eqn:Hms.
  - apply Nat.leb_le in Hms.
    replace (now w + 5000 <=? now w + ms)%nat with true
      by (symmetry; apply Nat.leb_le; lia).
    reflexivity.
  - apply Nat.leb_gt in Hms.
    replace (now w + 5000 <=? now w + ms)%nat with false
      by (symmetry; apply Nat.leb_gt; lia).
    reflexivity.
Qed.

Lemma retry_fires_at_five_seconds_witness :
  timers initial_world = []
  /\ connectionStatus
       (run_turns PairingCodeRevision "593987654321"
          [ProviderEmits (AuthFailure JNull); TimePasses 4999; TimerFires]
          initial_world)
     = {| isConnected := false; status := Error |}.
Proof.
  split; [reflexivity|].
  apply (retry_fires_at_five_seconds PairingCodeRevision "593987654321"
           JNull 4999 initial_world).
  reflexivity.
Defined.

(** ** Retry timers are neither lost nor duplicated *)





(** ** The two revisions side by side *)

Lemma silence_same w1 w2 :
  silence w1 = silence w2 <-> same_but_console w1 w2.
Proof.
  unfold silence, same_but_console. split.
  - intros H. injection H. auto.
  - intros (-> & -> & -> & ->). reflexivity.
Qed.

(** No handler reads the console: what a turn does to the rest of the state,
    and what it answers, is the same in either revision and whatever has
    been printed so far. *)
Lemma turn_ignores_console v v' phone phone' t w :
  silence (after (turn v phone t) w)
  = silence (after (turn v' phone' t) (silence w))
  /\ result (turn v phone t) w = result (turn v' phone' t) (silence w).
Proof.
  destruct w as [[c st] con tm nw calls].
  destruct t as [e| |ms|r]; cbn [turn].
  - destruct e, v, v'; split; reflexivity.
  - unfold fire_timer, silence, after, result. step_monad.
    cbn [connectionStatus console timers now sendMessage_calls].
    destruct tm as [|[d []] rest]; [split; reflexivity|].
    cbn [due callback]. destruct (d <=? nw)%nat; split; reflexivity.
  - split; reflexivity.
  - destruct r as [| |b rejects]; cbn [serve].
    + split; reflexivity.
    + split; reflexivity.
    + unfold post_send_message, silence, after, result.
      generalize (prop b "number"), (prop b "message"); intros number text.
      destruct (truthy number), (truthy text), c, rejects; split; reflexivity.
Qed.

Lemma run_turns_ignore_console v v' phone phone' ts w1 w2 :
  silence w1 = silence w2 ->
  silence (run_turns v phone ts w1) = silence (run_turns v' phone' ts w2).
Proof.
  revert w1 w2. induction ts as [|t ts IH]; intros w1 w2 H; [exact H|].
  rewrite !run_turns_cons. apply IH.
  rewrite (proj1 (turn_ignores_console v v phone phone t w1)).
  rewrite (proj1 (turn_ignores_console v' v phone' phone t w2)).
  rewrite H. reflexivity.
Qed.

(** X12.  The pairing-code revision and the QR revision are the same
    service to an HTTP client.  Fed the same turns from the same state they
    end in states that differ at most in what was printed, and from there
    every request gets the same answer from both. *)
Theorem revisions_agree_up_to_console
    (phone : string) (ts : list Turn) (w : World) (r : HttpRequest) :
  same_but_console
    (run_turns PairingCodeRevision phone ts w)
    (run_turns QrRevision phone ts w)
  /\ result (serve r) (run_turns PairingCodeRevision phone ts w)
     = result (serve r) (run_turns QrRevision phone ts w).
Proof.
  pose proof (run_turns_ignore_console PairingCodeRevision QrRevision
                phone phone ts w w eq_refl) as Hs.
  split; [apply silence_same, Hs|].
  pose proof (turn_ignores_console PairingCodeRevision PairingCodeRevision
                phone phone (Request r)) as Hr.
  assert (Hserve : forall w0,
            result (serve r) w0 = result (serve r) (silence w0)).
  { intros w0. destruct (Hr w0) as [_ H]. cbn [turn] in H.
    unfold result, mbind, M_bind, bind, mret, M_ret, ret in *.
    destruct (serve r w0) as [[a|e] s1], (serve r (silence w0)) as [[a'|e'] s2];
      cbn [fst] in *; congruence. }
  rewrite Hserve, Hs, <- Hserve. reflexivity.
Qed.

(** * Further properties of start-up *)

(** [main] after a successful validation: the preamble, the library calls
    in order up to the first that throws, then either the [catch] block or
    the announcement. *)
Lemma startup_trace v env fails :
  truthy (WHATSAPP_PHONE env) = true ->
  startup v env fails
  = (preamble env
     ++ (attempt fails (library_calls v env)).1
     ++ match (attempt fails (library_calls v env)).2 with
        | Some e => startup_failure e
        | None => announcement env
        end)%list.
Proof.
  destruct env as [port [[|c phone]|]]; try discriminate. intros _.
  destruct v;
    unfold startup, main, validateConfig, external, announcement,
      library_calls, wiring, preamble;
    step_monad;
    cbn [truthy WHATSAPP_PHONE env_WHATSAPP_PHONE_NUMBER negb fst snd app
         attempt];
    unfold write_line, Effects_console;
    repeat (match goal with
            | |- context [match fails ?c with _ => _ end] =>
                destruct (fails c); cbn [fst snd app attempt];
                [reflexivity|]
            end);
    reflexivity.
Qed.

Lemma attempt_all_succeed fails cs :
  forallb (succeeds fails) cs = true ->
  attempt fails cs = (map Called cs, None).
Proof.
  induction cs as [|c cs IH]; intros H; [reflexivity|].
  cbn [forallb] in H. apply andb_prop in H as [Hc Hcs].
  unfold succeeds in Hc. cbn [attempt map].
  destruct (fails c); [discriminate Hc|]. rewrite (IH Hcs). reflexivity.
Qed.

Lemma attempt_first_failure fails cs1 c cs2 e :
  forallb (succeeds fails) cs1 = true ->
  fails c = Some e ->
  attempt fails (cs1 ++ c :: cs2) = (map Called (cs1 ++ [c]), Some e).
Proof.
  intros H1 Hc. induction cs1 as [|c1 cs1 IH].
  - cbn. rewrite Hc. reflexivity.
  - cbn [forallb] in H1. apply andb_prop in H1 as [Hc1 Hcs1].
    unfold succeeds in Hc1. cbn [attempt app map].
    destruct (fails c1); [discriminate Hc1|]. rewrite (IH Hcs1). reflexivity.
Qed.

(** An attempt is stopped exactly when one of its calls fails. *)
Lemma attempt_outcome fails cs :
  forallb (succeeds fails) cs
  = match (attempt fails cs).2 with None => true | Some _ => false end.
Proof.
  induction cs as [|c cs IH]; [reflexivity|].
  cbn [forallb attempt]. unfold succeeds at 1.
  destruct (fails c); [reflexivity|].
  cbn [andb]. rewrite IH. destruct (attempt fails cs). reflexivity.
Qed.

Lemma attempt_never_exits fails cs :
  existsb exits (attempt fails cs).1 = false.
Proof.
  induction cs as [|c cs IH]; [reflexivity|].
  cbn [attempt]. destruct (fails c); [reflexivity|].
  destruct (attempt fails cs). exact IH.
Qed.

(** [httpServer], placed last, is reached exactly when all calls before it
    succeed. *)
Lemma attempt_reaches_last fails cs p :
  forallb (fun c => negb (binds_port (Called c))) cs = true ->
  List.filter binds_port (attempt fails (cs ++ [HttpServer p])).1
  = if forallb (succeeds fails) cs then [Called (HttpServer p)] else [].
Proof.
  induction cs as [|c cs IH]; intros Hcs.
  - cbn. destruct (fails (HttpServer p)); reflexivity.
  - cbn [forallb] in Hcs. apply andb_prop in Hcs as [Hc Hcs].
    apply negb_true_iff in Hc.
    cbn [app attempt forallb]. unfold succeeds at 1.
    destruct (fails c).
    + cbn [fst List.filter andb]. rewrite Hc. reflexivity.
    + cbn [andb]. rewrite <- (IH Hcs).
      destruct (attempt fails (cs ++ [HttpServer p])).
      cbn [fst List.filter]. rewrite Hc. reflexivity.
Qed.

Lemma calls_never_exit cs : existsb exits (map Called cs) = false.
Proof. induction cs as [|c cs IH]; [reflexivity|exact IH]. Qed.

Lemma wiring_binds_no_port v env :
  forallb (fun c => negb (binds_port (Called c))) (wiring v env) = true.
Proof. destruct v; reflexivity. Qed.

Lemma startup_invalid v env fails :
  truthy (WHATSAPP_PHONE env) = false ->
  startup v env fails
  = startup_failure
      (new_Error "WHATSAPP_PHONE_NUMBER environment variable is required").
Proof. destruct env as [port [[|c phone]|]]; try discriminate; reflexivity. Qed.

(** X13.  Start-up validation rejects an empty WHATSAPP_PHONE_NUMBER like
    an absent one: [main] prints the required-variable error and exits
    exactly when the variable is absent or the empty string, whatever the
    libraries would have done. *)
Theorem phone_number_required_iff
    (v : Variant) (env : Env) (fails : ExternalCall -> option JsError) :
  startup v env fails
  = startup_failure
      (new_Error "WHATSAPP_PHONE_NUMBER environment variable is required")
  <-> env_WHATSAPP_PHONE_NUMBER env = None
      \/ env_WHATSAPP_PHONE_NUMBER env = Some "".
Proof.
  split.
  - intros H. destruct env as [port [[|c phone]|]]; auto.
    rewrite startup_trace in H by reflexivity. discriminate H.
  - intros H. apply startup_invalid.
    destruct env as [port phone]. cbn in H.
    destruct H as [-> | ->]; reflexivity.
Qed.

Lemma phone_number_required_iff_witness :
  startup QrRevision {| env_PORT := Some "8080";
                        env_WHATSAPP_PHONE_NUMBER := Some "" |}
    (fun _ => None)
  = startup_failure
      (new_Error "WHATSAPP_PHONE_NUMBER environment variable is required").
Proof.
  apply (phone_number_required_iff QrRevision
           {| env_PORT := Some "8080"; env_WHATSAPP_PHONE_NUMBER := Some "" |}
           (fun _ => None)).
  right. reflexivity.
Defined.

(** X14.  The first library call that throws ends start-up.  With a valid
    configuration, if the calls before [c] succeed and [c] throws [e], the
    process has made exactly the calls up to [c], then prints the start-up
    error carrying [e] and exits with code 1; no later call is made. *)
Theorem first_failing_call_stops_startup
    (v : Variant) (env : Env) (fails : ExternalCall -> option JsError)
    (before after_it : list ExternalCall) (c : ExternalCall) (e : JsError) :
  truthy (WHATSAPP_PHONE env) = true ->
  library_calls v env = (before ++ c :: after_it)%list ->
  forallb (succeeds fails) before = true ->
  fails c = Some e ->
  startup v env fails
  = (preamble env ++ map Called (before ++ [c]) ++ startup_failure e)%list.
Proof.
  intros Hphone Hcalls Hbefore Hc.
  rewrite (startup_trace _ _ _ Hphone), Hcalls.
  rewrite (attempt_first_failure _ _ _ _ _ Hbefore Hc). reflexivity.
Qed.

Lemma first_failing_call_stops_startup_witness :
  let env := {| env_PORT := None;
                env_WHATSAPP_PHONE_NUMBER := Some "593987654321" |} in
  let fails := fun c => match c with
                        | CreateBot => Some (new_Error "ECONNREFUSED")
                        | ServerGet _ => Some (new_Error "unreachable")
                        | _ => None
                        end in
  let before := [NewDatabase; CreateFlow;
                 CreateProvider (provider_options QrRevision env);
                 On "auth_failure"; On "ready"; On "qr";
                 On "error"; On "close"] in
  startup QrRevision env fails
  = (preamble env ++ map Called (before ++ [CreateBot])
     ++ startup_failure (new_Error "ECONNREFUSED"))%list.
Proof.
  intros env fails before.
  apply (first_failing_call_stops_startup QrRevision env fails before
           [ServerGet "/"; ServerPost "/send-message"; ServerGet "/status";
            HttpServer (PORT env)] CreateBot (new_Error "ECONNREFUSED"));
    reflexivity.
Defined.

(** X15.  [httpServer] is called at most once, and exactly when the
    configuration is valid and every call that wires the service together
    (database, flow, provider, listeners, bot, routes) succeeded.  Nothing
    is said here about the port number the call receives. *)
Theorem server_starts_iff_wiring_succeeds
    (v : Variant) (env : Env) (fails : ExternalCall -> option JsError) :
  length (List.filter binds_port (startup v env fails))
  = if truthy (WHATSAPP_PHONE env) && forallb (succeeds fails) (wiring v env)
    then 1
    else 0.
Proof.
  destruct (truthy (WHATSAPP_PHONE env)) eqn:Hphone.
  - rewrite (startup_trace _ _ _ Hphone). unfold library_calls.
    rewrite !List.filter_app,
      (attempt_reaches_last _ _ _ (wiring_binds_no_port v env)).
    cbn [andb preamble List.filter binds_port app].
    rewrite length_app.
    destruct ((attempt fails (wiring v env ++ [HttpServer (PORT env)])).2);
      cbn [startup_failure announcement List.filter binds_port length];
      destruct (forallb (succeeds fails) (wiring v env)); reflexivity.
  - rewrite (startup_invalid _ _ _ Hphone). reflexivity.
Qed.

(** X16.  When nothing fails, [main] prints the preamble, makes every
    library call in source order (all listeners and all three routes are
    registered before [httpServer] is called), prints the announcement and
    does not exit. *)
Theorem startup_succeeds
    (v : Variant) (env : Env) (fails : ExternalCall -> option JsError) :
  truthy (WHATSAPP_PHONE env) = true ->
  forallb (succeeds fails) (library_calls v env) = true ->
  startup v env fails
  = (preamble env ++ map Called (library_calls v env) ++ announcement env)%list
  /\ existsb exits (startup v env fails) = false.
Proof.
  intros Hphone Hok.
  assert (H : startup v env fails
    = (preamble env ++ map Called (library_calls v env)
       ++ announcement env)%list).
  { rewrite (startup_trace _ _ _ Hphone), (attempt_all_succeed _ _ Hok).
    reflexivity. }
  split; [exact H|]. rewrite H, !existsb_app, calls_never_exit.
  reflexivity.
Qed.

Lemma startup_succeeds_witness :
  let env := {| env_PORT := Some "8080";
                env_WHATSAPP_PHONE_NUMBER := Some "593987654321" |} in
  truthy (WHATSAPP_PHONE env) = true
  /\ forallb (succeeds (fun _ => None))
        (library_calls PairingCodeRevision env) = true
  /\ startup PairingCodeRevision env (fun _ => None)
     = (preamble env ++ map Called (library_calls PairingCodeRevision env)
        ++ announcement env)%list.
Proof.
  intros env. do 2 (split; [reflexivity|]).
  apply (startup_succeeds PairingCodeRevision env (fun _ => None));
    reflexivity.
Defined.

(** X17.  The process exits exactly when start-up failed, and then the
    exit, with code 1, is the last thing it does; otherwise the last thing
    [main] does is print the status URL. *)
Theorem startup_exits_iff_failed
    (v : Variant) (env : Env) (fails : ExternalCall -> option JsError) :
  let ok := truthy (WHATSAPP_PHONE env)
            && forallb (succeeds fails) (library_calls v env) in
  existsb exits (startup v env fails) = negb ok
  /\ last (startup v env fails)
     = if ok then last (announcement env) else Some (Exited 1).
Proof.
  cbn zeta. destruct (truthy (WHATSAPP_PHONE env)) eqn:Hphone.
  - rewrite (startup_trace _ _ _ Hphone), attempt_outcome.
    rewrite !existsb_app, attempt_never_exits.
    destruct ((attempt fails (library_calls v env)).2) as [e|];
      cbn [andb negb orb preamble existsb exits startup_failure announcement];
      (split; [reflexivity|]);
      rewrite !app_assoc, last_app; reflexivity.
  - rewrite (startup_invalid _ _ _ Hphone). split; reflexivity.
Qed.
